(** * rest_toolbox: field visibility filter and polymorphic serializer router

    A shallow embedding of [rest_toolbox/optional_fields.py] and
    [rest_toolbox/polymorphic.py].  Python dictionaries are finite maps
    ([gmap]), the ordered mapping of declared fields is an association
    list, and every function that can raise returns a [Result]. *)

From Stdlib Require Import ZArith Ascii String List.
From stdpp Require Import base option list strings gmap fin_maps.

Open Scope string_scope.

Set Warnings "-register-all".

(** ** Python values, exceptions and the host framework's helpers *)

Module Py.

Inductive Exn :=
| KeyError
| AttributeError
| TypeError
| AssertionError (msg : string)
| ValidationError (msg : string).

Inductive Result (A : Type) :=
| Ok (a : A)
| Raise (e : Exn).
Arguments Ok {A} a.
Arguments Raise {A} e.

(** Sequencing: an exception raised by the first statement skips the rest. *)
#[global] Instance Result_bind : MBind Result := λ A B k r,
  match r with
  | Ok a => k a
  | Raise e => Raise e
  end.

#[global] Instance Result_ret : MRet Result := λ A a, Ok a.

(** Objects carry an identity [oid] and the name of their class; a
    [VDict] is a mapping. *)
Inductive Val :=
| VNone
| VBool (b : bool)
| VInt (z : Z)
| VStr (s : string)
| VDict (items : gmap string Val)
| VObj (oid : nat) (cls : string) (attrs : gmap string Val).

(** [instance.__class__] *)
Definition class_of (v : Val) : string :=
  match v with
  | VNone => "NoneType"
  | VBool _ => "bool"
  | VInt _ => "int"
  | VStr _ => "str"
  | VDict _ => "dict"
  | VObj _ cls _ => cls
  end.

(** Truth value of an object, as tested by [if not x]. *)
Definition truthy (v : Val) : bool :=
  match v with
  | VNone => false
  | VBool b => b
  | VInt z => negb (Z.eqb z 0)
  | VStr s => negb (String.eqb s "")
  | VDict items => negb (bool_decide (items = ∅))
  | VObj _ _ _ => true
  end.

Definition is_none (v : Val) : bool :=
  match v with
  | VNone => true
  | _ => false
  end.

(** [name == value] for a [str] on the left. *)
Definition str_eq (name : string) (v : Val) : bool :=
  match v with
  | VStr s => bool_decide (name = s)
  | _ => false
  end.

(** Modelled from the spec: the host framework's attribute-path
    resolution utility [rest_framework.fields.get_attribute], which the
    repository imports.  "Given an object and a dotted path, returns the
    nested attribute value or fails with a not-found condition": a
    mapping is indexed ([KeyError] when the key is absent), any other
    object is read with [getattr] ([AttributeError] when absent). *)
Fixpoint get_attribute (instance : Val) (attrs : list string) : Result Val :=
  match attrs with
  | [] => Ok instance
  | attr :: rest =>
      match instance with
      | VDict items =>
          match items !! attr with
          | Some v => get_attribute v rest
          | None => Raise KeyError
          end
      | VObj _ _ fields =>
          match fields !! attr with
          | Some v => get_attribute v rest
          | None => Raise AttributeError
          end
      | _ => Raise AttributeError
      end
  end.

(** [s.split('.')] *)
Fixpoint split_dot (s : string) : list string :=
  match s with
  | EmptyString => [""]
  | String c rest =>
      if Ascii.eqb c "."%char then "" :: split_dot rest
      else match split_dot rest with
           | h :: t => String c h :: t
           | [] => [String c ""]
           end
  end.

(** A path segment: a name without a dot. *)
Fixpoint dotless (s : string) : bool :=
  match s with
  | EmptyString => true
  | String c rest => negb (Ascii.eqb c ".") && dotless rest
  end.

(** ['.'.join(segments)] *)
Fixpoint join_dot (segments : list string) : string :=
  match segments with
  | [] => ""
  | [s] => s
  | s :: rest => s +:+ "." +:+ join_dot rest
  end.

(** [s.lower()] on ASCII text. *)
Definition lower_ascii (c : ascii) : ascii :=
  let n := nat_of_ascii c in
  if Nat.leb 65 n && Nat.leb n 90 then ascii_of_nat (n + 32) else c.

Fixpoint lower (s : string) : string :=
  match s with
  | EmptyString => EmptyString
  | String c rest => String (lower_ascii c) (lower rest)
  end.

(** [name.startswith('_')] *)
Definition startswith_underscore (name : string) : bool :=
  match name with
  | String c _ => Ascii.eqb c "_"%char
  | EmptyString => false
  end.

(** The request-like context object of the host framework. *)
Record User := { user_oid : nat; is_superuser : bool }.

Record Request := { user : User; query_params : gmap string string }.

(** The serializer context; [request] is [context.get('request', None)]. *)
Record Context := { request : option Request }.

(** [user == other]: object identity. *)
Definition user_eq (u : User) (other : Val) : bool :=
  match other with
  | VObj oid _ _ => Nat.eqb (user_oid u) oid
  | _ => false
  end.

(** The iteration [for k, v in d.items(): if k == x: return v]. *)
Definition first_item {V} (p : string → bool) (d : gmap string V) : option (string * V) :=
  find (λ kv, p kv.1) (map_to_list d).

(** A dict comprehension [{key(k, v): value(k, v) for k, v in d.items()}]:
    items are stored in iteration order, a later one replacing an
    earlier one under the same key. *)
Definition store {A B} (f : string * A → string * B)
    (acc : gmap string B) (kv : string * A) : gmap string B :=
  <[(f kv).1 := (f kv).2]> acc.

Definition dict_comprehension {A B} (f : string * A → string * B)
    (d : gmap string A) : gmap string B :=
  foldl (store f) ∅ (map_to_list d).

End Py.

Import Py.

(** ** rest_toolbox/optional_fields.py *)

Module OptionalFields.

(** A declared field of the host serializer; the filter never looks inside. *)
Record Field := { field_class : string }.

(** The serializer's inner [Meta] class.  An attribute that the class
    does not define is [None] here ([hasattr] is false). *)
Record MetaClass := {
  owner_attr : option string;
  owner_fields : option (list string);
  optional_fields : option (list string)
}.

(** An attribute of the serializer found under a [show_<field>] name. *)
Inductive Attr :=
| Callable (f : Val → string → Field → Result (option bool))
| NotCallable (v : Val).

(** A serializer built from the mixin: [declared] is what
    [super().get_fields()] returns, in declaration order. *)
Record Serializer := {
  Meta : option MetaClass;
  context : Context;
  instance : Val;
  declared : list (string * Field);
  attrs : gmap string Attr
}.

Definition OWNER_FIELDS_NO_ATTR : string :=
  "May not set `owner_fields` without `owner_attr.`".

(** [hasattr(meta, 'owner_fields')], [hasattr(meta, 'owner_attr')] *)
Definition has_owner_fields (meta : option MetaClass) : bool :=
  match meta with
  | Some m => bool_decide (is_Some (owner_fields m))
  | None => false
  end.

Definition has_owner_attr (meta : option MetaClass) : bool :=
  match meta with
  | Some m => bool_decide (is_Some (owner_attr m))
  | None => false
  end.

(** [__init__]: the configuration assertion. *)
Definition init (self : Serializer) : Result unit :=
  if has_owner_attr (Meta self) || negb (has_owner_fields (Meta self))
  then Ok ()
  else Raise (AssertionError OWNER_FIELDS_NO_ATTR).

(** [getattr(meta, 'owner_fields', ())] *)
Definition owner_fields_or_empty (meta : option MetaClass) : list string :=
  match meta with
  | Some m => default [] (owner_fields m)
  | None => []
  end.

(** [getattr(self, name)] for a [show_<field>] name.  [show_field] is
    the mixin's own method: it takes [(field_name, field)] and rejects
    the [instance] keyword it is called with. *)
Definition getattr_show (self : Serializer) (name : string) : option Attr :=
  if decide (name = "show_field")
  then Some (Callable (λ _ _ _, Raise TypeError))
  else attrs self !! name.

Definition get_owner_of (self : Serializer) (obj : Val) : Result Val :=
  let looked_up :=
    match Meta self with
    | Some m =>
        match owner_attr m with
        | Some a => Ok a
        | None => Raise AttributeError
        end
    | None => Raise AttributeError
    end in
  match looked_up with
  | Raise KeyError => Ok VNone
  | Raise e => Raise e
  | Ok attr =>
      if decide (attr = "*") then Ok obj
      else get_attribute obj (split_dot attr)
  end.

Definition user_is_owner (self : Serializer) (u : User) (obj : Val) : Result bool :=
  if is_superuser u then Ok true
  else
    owner ← get_owner_of self obj;
    if user_eq u owner then Ok true else Ok false.

Definition allow_field (self : Serializer) (field_name : string) (field : Field)
  : Result bool :=
  let meta := Meta self in
  let req := request (context self) in
  if negb (bool_decide (field_name ∈ owner_fields_or_empty meta)) then Ok true
  else if negb (has_owner_fields meta) then Ok true
  else
    match req with
    | None => Ok false
    | Some r => user_is_owner self (user r) (instance self)
    end.

Definition get_show_field_param (field_name : string) : string :=
  "show_" +:+ field_name +:+ "_field".

(** The block "run a function named show_{field} if one exists": its
    answer, or [None] when no function ran. *)
Definition run_show_func (self : Serializer) (field_name : string)
    (field : Field) : Result (option bool) :=
  let show_func_name := "show_" +:+ field_name in
  match getattr_show self show_func_name with
  | Some (Callable show_func) => show_func (instance self) field_name field
  | _ => Ok None
  end.

(** The block "do not hide optional fields if they are explicitly
    requested", with the final [return False]. *)
Definition explicitly_requested (self : Serializer) (field_name : string) : bool :=
  match request (context self) with
  | Some r =>
      match query_params r !! get_show_field_param field_name with
      | Some v => bool_decide (lower v ∈ ["1"; "y"; "true"])
      | None => false
      end
  | None => false
  end.

Definition show_field (self : Serializer) (field_name : string) (field : Field)
  : Result bool :=
  if negb (truthy (instance self)) then Ok true
  else
    optional ← match Meta self with
               | Some m => Ok (default [] (optional_fields m))
               | None => Raise AttributeError
               end;
    if negb (bool_decide (field_name ∈ optional)) then Ok true
    else
      result ← run_show_func self field_name field;
      match result with
      | Some b => Ok b
      | None => Ok (explicitly_requested self field_name)
      end.

(** The loop condition [self.allow_field(..) and self.show_field(..)]. *)
Definition keep_field (self : Serializer) (name : string) (field : Field)
  : Result bool :=
  allowed ← allow_field self name field;
  if (allowed : bool) then show_field self name field else Ok false.

(** The loop of [get_fields]: pop every field that is not kept. *)
Fixpoint filter_fields (self : Serializer) (fields : list (string * Field))
  : Result (list (string * Field)) :=
  match fields with
  | [] => Ok []
  | (name, field) :: rest =>
      keep ← keep_field self name field;
      rest' ← filter_fields self rest;
      Ok (if (keep : bool) then (name, field) :: rest' else rest')
  end.

Definition get_fields (self : Serializer) : Result (list (string * Field)) :=
  filter_fields self (declared self).

End OptionalFields.

(** ** rest_toolbox/polymorphic.py *)

Module Polymorphic.

(** The keyword arguments [sargs] handed to a concrete serializer;
    [sa_data] is present only when the outer serializer has
    [initial_data]. *)
Record SArgs := {
  sa_instance : Val;
  sa_partial : bool;
  sa_context : Context;
  sa_data : option Val
}.

(** A concrete serializer class of the host framework: its constructor
    and the entry points the router delegates to. *)
Record SerializerClass := {
  ser_init : SArgs → Result unit;
  ser_run_validation : SArgs → Val → Result (gmap string Val);
  ser_to_internal_value : SArgs → Val → Result (gmap string Val);
  ser_to_representation : SArgs → Val → Result (gmap string Val);
  ser_create : SArgs → Val → Result Val;
  ser_update : SArgs → Val → Val → Result Val
}.

(** A [Types] entry [(cls, serializer)]; classes are known by name. *)
Abbreviation Entry := (string * SerializerClass)%type.

(** What the metaclass stores on a polymorphic serializer class. *)
Record Class := {
  _type_fields : gmap string Entry;
  _declared_types : gmap string Entry;
  _declared_classes : gmap string (string * SerializerClass)
}.

(** A base class either carries [_type_fields] or does not. *)
Inductive Base :=
| PlainBase
| PolyBase (c : Class).

(** The base [b] has no [_type_fields] entry under [name]. *)
Definition silent (name : string) (b : Base) : Prop :=
  match b with
  | PolyBase c => _type_fields c !! name = None
  | PlainBase => True
  end.

(** The class body [attrs]: the inner [Types] class, if any, as its
    [__dict__]. *)
Record ClassBody := { Types : option (gmap string Entry) }.

Definition declared_locally (attrs : ClassBody) : gmap string Entry :=
  match Types attrs with
  | Some types => filter (λ kv, startswith_underscore kv.1 = false) types
  | None => ∅
  end.

(** [parent = base._type_fields.copy(); parent.update(fields)] *)
Definition merge_base (fields : gmap string Entry) (base : Base)
  : gmap string Entry :=
  match base with
  | PolyBase c => fields ∪ _type_fields c
  | PlainBase => fields
  end.

Definition _get_type_fields (bases : list Base) (attrs : ClassBody)
  : gmap string Entry :=
  foldl merge_base (declared_locally attrs) (reverse bases).

Definition _get_declared_types (type_fields : gmap string Entry)
  : gmap string Entry :=
  dict_comprehension (λ '(name, (cls, serializer)), (name, (cls, serializer)))
    type_fields.

Definition _get_declared_classes (type_fields : gmap string Entry)
  : gmap string (string * SerializerClass) :=
  dict_comprehension (λ '(name, (cls, serializer)), (cls, (name, serializer)))
    type_fields.

(** No two items of the table name the same class. *)
Definition unique_classes (type_fields : gmap string Entry) : Prop :=
  NoDup ((map_to_list type_fields).*2.*1).

(** The metaclass's [__new__]. *)
Definition new_class (bases : list Base) (attrs : ClassBody) : Class :=
  let type_fields := _get_type_fields bases attrs in
  {| _type_fields := type_fields;
     _declared_types := _get_declared_types type_fields;
     _declared_classes := _get_declared_classes type_fields |}.

Record MetaClass := { meta_type_field : option string }.

(** An instance of a polymorphic serializer class. *)
Record Serializer := {
  cls : Class;
  type_field : string;
  instance : Val;
  initial_data : option Val;
  partial : bool;
  _context : Context
}.

(** [__init__(instance, data, partial, context)] *)
Definition init (c : Class) (meta : option MetaClass) (inst : Val)
    (data : option Val) (part : bool) (ctx : Context) : Result Serializer :=
  let declared := meta ≫= meta_type_field in
  let tf := default "type" declared in
  if negb (bool_decide (is_Some declared)) || negb (bool_decide (tf = "type"))
  then Ok {| cls := c; type_field := tf; instance := inst;
             initial_data := data; partial := part; _context := ctx |}
  else Raise (AssertionError
                "Redundant type_field. Simply omit the type_field from meta.").

Definition NoTypeSpecified : Exn := ValidationError "No type specified.".
Definition BadType : Exn := ValidationError "Bad type.".

(** [data] is [None] for the sentinel [empty]. *)
Definition get_serializer_class (self : Serializer) (inst : Val)
    (data : option Val) : Result (option SerializerClass) :=
  if negb (is_none inst) then
    match first_item (λ c, bool_decide (c = class_of inst))
            (_declared_classes (cls self)) with
    | Some (_, (_, serializer)) => Ok (Some serializer)
    | None => Ok None
    end
  else
    match data with
    | Some d =>
        type_value ← match get_attribute d [type_field self] with
                     | Raise KeyError => Raise NoTypeSpecified
                     | r => r
                     end;
        match first_item (λ name, str_eq name type_value)
                (_declared_types (cls self)) with
        | Some (_, (_, serializer)) => Ok (Some serializer)
        | None => Ok None
        end
    | None => Ok None
    end.

(** A concrete serializer instance: its class and constructor arguments. *)
Record Bound := { bound_class : SerializerClass; bound_args : SArgs }.

Definition sargs (self : Serializer) : SArgs :=
  {| sa_instance := instance self;
     sa_partial := partial self;
     sa_context := _context self;
     sa_data := initial_data self |}.

(** Calling the resolved class with the keyword arguments [sargs];
    calling [None] is a [TypeError]. *)
Definition instantiate (c : option SerializerClass) (args : SArgs)
  : Result Bound :=
  match c with
  | Some k => _ ← ser_init k args; Ok {| bound_class := k; bound_args := args |}
  | None => Raise TypeError
  end.

Definition get_serializer (self : Serializer) (inst : Val) (data : option Val)
  : Result Bound :=
  match c ← get_serializer_class self inst data; instantiate c (sargs self) with
  | Raise TypeError => Raise BadType
  | r => r
  end.

(** [data.get(key, None)] on the input payload. *)
Definition payload_get (data : Val) (key : string) : Result Val :=
  match data with
  | VDict items => Ok (default VNone (items !! key))
  | _ => Raise AttributeError
  end.

Definition run_validation (self : Serializer) (data : option Val)
  : Result (gmap string Val) :=
  data ← match data with
         | Some d => Ok d
         | None =>
             match initial_data self with
             | Some d => Ok d
             | None => Raise AttributeError
             end
         end;
  type ← payload_get data (type_field self);
  s ← get_serializer self VNone (Some data);
  out ← ser_run_validation (bound_class s) (bound_args s) data;
  Ok (<[type_field self := type]> out).

Definition to_internal_value (self : Serializer) (data : Val)
  : Result (gmap string Val) :=
  s ← get_serializer self VNone (Some data);
  ser_to_internal_value (bound_class s) (bound_args s) data.

Definition to_representation (self : Serializer) (inst : Val)
  : Result (gmap string Val) :=
  s ← get_serializer self inst None;
  data ← ser_to_representation (bound_class s) (bound_args s) inst;
  entry ← match _declared_classes (cls self) !! class_of inst with
          | Some e => Ok e
          | None => Raise KeyError
          end;
  Ok (<[type_field self := VStr entry.1]> data).

Definition create (self : Serializer) (validated_data : Val) : Result Val :=
  s ← get_serializer self VNone (Some validated_data);
  ser_create (bound_class s) (bound_args s) validated_data.

Definition update (self : Serializer) (inst : Val) (validated_data : Val)
  : Result Val :=
  s ← get_serializer self inst None;
  ser_update (bound_class s) (bound_args s) inst validated_data.

End Polymorphic.

(** ** Concrete serializers used to exercise the definitions *)

Module Examples.

Import OptionalFields.

Definition alice : User := {| user_oid := 7; is_superuser := false |}.
Definition bob : User := {| user_oid := 8; is_superuser := false |}.
Definition root : User := {| user_oid := 1; is_superuser := true |}.

Definition alice_obj : Val := VObj 7 "User" ∅.
Definition bob_obj : Val := VObj 8 "User" ∅.

Definition char_field : Field := {| field_class := "CharField" |}.
Definition profile_field : Field := {| field_class := "ProfileSerializer" |}.

Definition user_fields : list (string * Field) :=
  [("username", char_field); ("password", char_field);
   ("email", char_field); ("profile", profile_field)].

(** The [Meta] of the module docstring. *)
Definition user_meta : MetaClass :=
  {| owner_attr := Some "*";
     owner_fields := Some ["email"];
     optional_fields := Some ["profile"] |}.

Definition request_of (u : User) (params : gmap string string) : Context :=
  {| request := Some {| user := u; query_params := params |} |}.

Definition no_request : Context := {| request := None |}.

(** A create call by a regular user: no instance is bound. *)
Definition user_create : Serializer :=
  {| Meta := Some user_meta; context := request_of alice ∅;
     instance := VNone; declared := user_fields; attrs := ∅ |}.

(** Reading alice's record outside a request. *)
Definition user_read_offline : Serializer :=
  {| Meta := Some user_meta; context := no_request;
     instance := alice_obj; declared := user_fields; attrs := ∅ |}.

(** A superuser reading bob's record, where [email] is owner-only and
    optional at once. *)
Definition owner_and_optional : Serializer :=
  {| Meta := Some {| owner_attr := Some "*";
                     owner_fields := Some ["email"];
                     optional_fields := Some ["email"] |};
     context := request_of root ∅;
     instance := bob_obj; declared := user_fields; attrs := ∅ |}.

(** A [show_profile] override that refuses, against a request that asks
    for the profile. *)
Definition override_refuses : Serializer :=
  {| Meta := Some user_meta;
     context := request_of alice {["show_profile_field" := "1"]};
     instance := alice_obj; declared := user_fields;
     attrs := {["show_profile" := Callable (λ _ _ _, Ok (Some false))]} |}.

(** A post whose owner is reached through the [author] attribute. *)
Definition post_obj : Val := VObj 20 "Post" {["author" := alice_obj]}.

Definition post_fields : list (string * Field) :=
  [("title", char_field); ("draft", char_field)].

Definition post_serializer (attr : string) (inst : Val) (u : User) : Serializer :=
  {| Meta := Some {| owner_attr := Some attr;
                     owner_fields := Some ["draft"];
                     optional_fields := None |};
     context := request_of u ∅;
     instance := inst; declared := post_fields; attrs := ∅ |}.

(** Instances that carry no [author]: a mapping and a plain object. *)
Definition orphan_mapping : Val := VDict {["title" := VStr "hello"]}.
Definition orphan_object : Val := VObj 21 "Post" {["title" := VStr "hello"]}.

(** Serializers whose class has no inner [Meta]. *)
Definition bare_read : Serializer :=
  {| Meta := None; context := request_of alice ∅;
     instance := alice_obj; declared := user_fields; attrs := ∅ |}.

Definition bare_create : Serializer :=
  {| Meta := None; context := request_of alice ∅;
     instance := VNone; declared := user_fields; attrs := ∅ |}.

(** A [Meta] that restricts none of the declared fields. *)
Definition unrestricted_read : Serializer :=
  {| Meta := Some {| owner_attr := Some "*";
                     owner_fields := Some ["secret"];
                     optional_fields := Some ["extra"] |};
     context := no_request;
     instance := alice_obj; declared := user_fields; attrs := ∅ |}.

(** An optional field that happens to be called [field]. *)
Definition field_named_field : Serializer :=
  {| Meta := Some {| owner_attr := None;
                     owner_fields := None;
                     optional_fields := Some ["field"] |};
     context := request_of alice {["show_field_field" := "1"]};
     instance := alice_obj;
     declared := [("name", char_field); ("field", char_field)];
     attrs := ∅ |}.

(** [owner_fields] without [owner_attr]. *)
Definition misconfigured : Serializer :=
  {| Meta := Some {| owner_attr := None;
                     owner_fields := Some ["email"];
                     optional_fields := None |};
     context := no_request;
     instance := VNone; declared := user_fields; attrs := ∅ |}.

Import Polymorphic.

(** Keeps the keys listed in [names]; rejects input that lacks one. *)
Definition pick (names : list string) (items : gmap string Val)
  : Result (gmap string Val) :=
  foldr (λ name acc,
           out ← acc;
           match items !! name with
           | Some v => Ok (<[name := v]> out)
           | None => Raise (ValidationError "This field is required.")
           end) (Ok ∅) names.

Definition attributes_of (v : Val) : gmap string Val :=
  match v with
  | VDict items => items
  | VObj _ _ fields => fields
  | _ => ∅
  end.

(** A plain serializer over the listed fields; it does not declare the
    discriminator. *)
Definition plain_serializer (names : list string) : SerializerClass :=
  {| ser_init := λ _, Ok ();
     ser_run_validation := λ _ data, pick names (attributes_of data);
     ser_to_internal_value := λ _ data, pick names (attributes_of data);
     ser_to_representation := λ _ inst, pick names (attributes_of inst);
     ser_create := λ _ data, Ok data;
     ser_update := λ _ inst _, Ok inst |}.

Definition TableSerializer : SerializerClass := plain_serializer ["legs"].
Definition CouchSerializer : SerializerClass := plain_serializer ["seats"].
Definition FoldingTableSerializer : SerializerClass :=
  plain_serializer ["legs"; "folded"].

(** A class whose constructor does not take the keyword arguments. *)
Definition StrictSerializer : SerializerClass :=
  {| ser_init := λ _, Raise TypeError;
     ser_run_validation := λ _ _, Ok ∅;
     ser_to_internal_value := λ _ _, Ok ∅;
     ser_to_representation := λ _ _, Ok ∅;
     ser_create := λ _ data, Ok data;
     ser_update := λ _ inst _, Ok inst |}.

(** [FurnitureSerializer] of the class docstring, with the entries a
    class [__dict__] carries besides. *)
Definition FurnitureTypes : gmap string Entry :=
  {[ "table" := ("Table", TableSerializer);
     "couch" := ("Couch", CouchSerializer);
     "__module__" := ("str", StrictSerializer) ]}.

Definition FurnitureSerializer : Class :=
  new_class [PlainBase] {| Types := Some FurnitureTypes |}.

(** A subclass that redeclares [table] and adds [safe]. *)
Definition OfficeTypes : gmap string Entry :=
  {[ "table" := ("FoldingTable", FoldingTableSerializer);
     "safe" := ("Safe", StrictSerializer) ]}.

Definition OfficeSerializer : Class :=
  new_class [PolyBase FurnitureSerializer] {| Types := Some OfficeTypes |}.

Definition serializer_of (c : Class) (data : option Val) : Polymorphic.Serializer :=
  {| cls := c; type_field := "type"; instance := VNone;
     initial_data := data; partial := false; _context := no_request |}.

Definition a_table : Val := VObj 30 "Table" {["legs" := VInt 4]}.
Definition a_couch : Val := VObj 31 "Couch" {["seats" := VInt 3]}.
Definition a_lamp : Val := VObj 32 "Lamp" ∅.

Definition office_table_payload : gmap string Val :=
  {["type" := VStr "table"; "legs" := VInt 4; "folded" := VBool true]}.

Definition table_payload : gmap string Val :=
  {["type" := VStr "table"; "legs" := VInt 4]}.

End Examples.

(** ** Facts about the Python layer *)

Module PyFacts.

Section Items.
Context {V : Type}.
Implicit Types d : gmap string V.

(** The search loop over [items()] for an equal key is a lookup. *)
Lemma first_item_key x d :
  first_item (λ k, bool_decide (k = x)) d = (λ v, (x, v)) <$> d !! x.
Proof.
  unfold first_item.
  destruct (find _ _) as [[k v]|] eqn:Hfind.
  - apply find_some in Hfind as [Hin Hk]. simpl in Hk.
    apply bool_decide_eq_true in Hk as ->.
    apply list_elem_of_In, elem_of_map_to_list in Hin.
    by rewrite Hin.
  - destruct (d !! x) as [v|] eqn:Hx; [|done].
    apply elem_of_map_to_list, list_elem_of_In in Hx.
    apply (find_none _ _ Hfind) in Hx. simpl in Hx.
    by apply bool_decide_eq_false in Hx.
Qed.

Lemma first_item_str_eq value d :
  first_item (λ name, str_eq name value) d =
  match value with
  | VStr s => (λ v, (s, v)) <$> d !! s
  | _ => None
  end.
Proof.
  destruct value; try apply first_item_key;
    unfold first_item; simpl;
    (destruct (find _ _) eqn:Hfind; [|done]);
    by apply find_some in Hfind as [_ ?].
Qed.
End Items.

Section Comprehension.
Context {A B : Type} (f : string * A → string * B).

Lemma foldl_store_origin l acc k v :
  foldl (store f) acc l !! k = Some v →
  acc !! k = Some v ∨ ∃ kv, kv ∈ l ∧ f kv = (k, v).
Proof.
  revert acc. induction l as [|kv l IH]; intros acc Hk; simpl in *; [by left|].
  apply IH in Hk as [Hk|(kv' & Hin & Hf)].
  - unfold store in Hk. destruct (decide ((f kv).1 = k)) as [<-|Hne].
    + rewrite lookup_insert_eq in Hk. right. exists kv. split; [left|].
      destruct (f kv); simpl in *. congruence.
    + rewrite lookup_insert_ne in Hk by done. by left.
  - right. exists kv'. split; [by right|done].
Qed.

(** Every item of a comprehension comes from an item of its source. *)
Lemma dict_comprehension_origin d k v :
  dict_comprehension f d !! k = Some v →
  ∃ k0 a, d !! k0 = Some a ∧ f (k0, a) = (k, v).
Proof.
  intros Hk. apply foldl_store_origin in Hk as [Hk|([k0 a] & Hin & Hf)].
  - by rewrite lookup_empty in Hk.
  - exists k0, a. by apply elem_of_map_to_list in Hin.
Qed.

Hypothesis same_key : ∀ kv, (f kv).1 = kv.1.

Lemma foldl_store_miss l acc k :
  k ∉ l.*1 → foldl (store f) acc l !! k = acc !! k.
Proof.
  revert acc. induction l as [|kv l IH]; intros acc Hk; simpl; [done|].
  rewrite fmap_cons in Hk. apply not_elem_of_cons in Hk as [Hne Hk].
  rewrite IH by done. unfold store. rewrite same_key.
  by rewrite lookup_insert_ne.
Qed.

Lemma foldl_store_hit l acc k a :
  NoDup l.*1 → (k, a) ∈ l → foldl (store f) acc l !! k = Some (f (k, a)).2.
Proof.
  revert acc. induction l as [|kv l IH]; intros acc Hnd Hin; simpl.
  { by apply elem_of_nil in Hin. }
  rewrite fmap_cons in Hnd. apply NoDup_cons in Hnd as [Hfresh Hnd].
  apply elem_of_cons in Hin as [<-|Hin].
  - rewrite foldl_store_miss by done. unfold store.
    rewrite same_key. apply lookup_insert_eq.
  - by apply IH.
Qed.

(** A comprehension that keeps the keys maps the values pointwise. *)
Lemma dict_comprehension_same_key d k :
  dict_comprehension f d !! k = (λ a, (f (k, a)).2) <$> d !! k.
Proof.
  unfold dict_comprehension. destruct (d !! k) as [a|] eqn:Hk; simpl.
  - apply (foldl_store_hit _ _ _ a); [apply NoDup_fst_map_to_list|].
    by apply elem_of_map_to_list.
  - rewrite foldl_store_miss; [apply lookup_empty|].
    intros ([k' a] & -> & Hin)%list_elem_of_fmap.
    apply elem_of_map_to_list in Hin. simpl in *. congruence.
Qed.
End Comprehension.

Lemma get_attribute_app obj p q :
  get_attribute obj (p ++ q) = (x ← get_attribute obj p; get_attribute x q).
Proof.
  revert obj. induction p as [|a p IH]; intros obj; simpl; [done|].
  destruct obj; try done.
  - destruct (items !! a); [apply IH|done].
  - destruct (attrs !! a); [apply IH|done].
Qed.

Lemma split_dot_nonempty s : split_dot s ≠ [].
Proof.
  destruct s as [|c s]; simpl; [done|].
  destruct (Ascii.eqb c "."); [done|]. by destruct (split_dot s).
Qed.

Lemma split_dot_dotless s : dotless s = true → split_dot s = [s].
Proof.
  induction s as [|c s IH]; simpl; [done|].
  intros [Hc Hs]%andb_true_iff. apply negb_true_iff in Hc.
  rewrite Hc, IH by done. done.
Qed.

Lemma split_dot_segment s rest :
  dotless s = true →
  split_dot (s +:+ "." +:+ rest) = s :: split_dot rest.
Proof.
  induction s as [|c s IH]; simpl; [done|].
  intros [Hc Hs]%andb_true_iff. apply negb_true_iff in Hc.
  rewrite Hc. fold (String.append s (String "." rest)).
  change (String "." rest) with ("." +:+ rest).
  by rewrite IH.
Qed.

(** [split] undoes [join] on dot-free segments. *)
Lemma split_dot_join segments :
  segments ≠ [] → forallb dotless segments = true →
  split_dot (join_dot segments) = segments.
Proof.
  induction segments as [|s [|s' rest] IH]; [done| |]; intros _ Hall.
  - simpl in *. apply split_dot_dotless. by apply andb_true_iff in Hall as [? _].
  - change (join_dot (s :: s' :: rest)) with (s +:+ "." +:+ join_dot (s' :: rest)).
    simpl in Hall. apply andb_true_iff in Hall as [Hs Hall].
    rewrite split_dot_segment by done. f_equal. by apply IH.
Qed.

End PyFacts.

(** ** The field visibility filter *)

Module OptionalFieldsSpec.

Import OptionalFields Examples.

Section Filter.
Variable self : Serializer.

(** [get_fields] keeps exactly the declared fields that pass both gates. *)
Lemma filter_fields_elem fields fs :
  filter_fields self fields = Ok fs →
  ∀ name field,
    (name, field) ∈ fs ↔
    (name, field) ∈ fields ∧ keep_field self name field = Ok true.
Proof.
  revert fs. induction fields as [|[n f] rest IH]; intros fs Hfs name field.
  - injection Hfs as <-. split; [by intros ?%elem_of_nil|by intros [?%elem_of_nil _]].
  - simpl in Hfs.
    destruct (keep_field self n f) as [keep|] eqn:Hkeep; [|done].
    destruct (filter_fields self rest) as [rest'|] eqn:Hrest; [|done].
    injection Hfs as <-. specialize (IH _ eq_refl name field).
    rewrite elem_of_cons. destruct keep.
    + rewrite elem_of_cons, IH. split.
      * intros [[= -> ->]|[? ?]]; [by split; [left|]|by split; [right|]].
      * intros [[?|?] ?]; [by left|by right].
    + rewrite IH. split; [intros [? ?]; by split; [right|]|].
      intros [[[= -> ->]|?] Hk]; [congruence|done].
Qed.

Lemma get_fields_elem fs name field :
  get_fields self = Ok fs →
  (name, field) ∈ fs ↔
  (name, field) ∈ declared self ∧ keep_field self name field = Ok true.
Proof. intros Hfs. by apply filter_fields_elem. Qed.

(** A name that the ownership gate refuses is absent from the result. *)
Lemma get_fields_refused fs name :
  get_fields self = Ok fs →
  (∀ field, allow_field self name field = Ok false) →
  name ∉ fs.*1.
Proof.
  intros Hfs Hno ([n field] & -> & Hin)%list_elem_of_fmap. simpl in Hin.
  apply (get_fields_elem _ _ _ Hfs) in Hin as [_ Hkeep].
  unfold keep_field in Hkeep. by rewrite Hno in Hkeep.
Qed.

(** When no field raises, the loop is a plain filter. *)
Lemma filter_fields_total fields (keep : string → bool) :
  (∀ name field, (name, field) ∈ fields →
                 keep_field self name field = Ok (keep name)) →
  filter_fields self fields = Ok (filter (λ nf, keep nf.1 = true) fields).
Proof.
  induction fields as [|[n f] rest IH]; intros Hkeep; simpl; [done|].
  rewrite Hkeep by left. rewrite IH by (intros; apply Hkeep; by right).
  simpl. rewrite filter_cons. simpl.
  destruct (keep n); by case_decide.
Qed.

Lemma allow_field_owner_listed m listed name field :
  Meta self = Some m → owner_fields m = Some listed → name ∈ listed →
  allow_field self name field =
  match request (context self) with
  | None => Ok false
  | Some r => user_is_owner self (user r) (instance self)
  end.
Proof.
  intros Hm Hlisted Hin. unfold allow_field, owner_fields_or_empty, has_owner_fields.
  rewrite Hm, Hlisted. simpl.
  by rewrite bool_decide_eq_true_2 by done.
Qed.

Lemma allow_field_unlisted name field :
  name ∉ owner_fields_or_empty (Meta self) →
  allow_field self name field = Ok true.
Proof.
  intros Hnot. unfold allow_field. by rewrite bool_decide_eq_false_2.
Qed.

Lemma show_field_unbound name field :
  truthy (instance self) = false → show_field self name field = Ok true.
Proof. intros Hi. unfold show_field. by rewrite Hi. Qed.

Lemma show_field_optional m listed name field :
  Meta self = Some m → optional_fields m = Some listed → name ∈ listed →
  truthy (instance self) = true →
  show_field self name field =
  (result ← run_show_func self name field;
   Ok (default (explicitly_requested self name) result)).
Proof.
  intros Hm Hlisted Hin Hi. unfold show_field.
  rewrite Hi, Hm, Hlisted. simpl.
  rewrite bool_decide_eq_true_2 by done. simpl.
  destruct (run_show_func self name field) as [[b|]|]; done.
Qed.

Lemma show_field_not_optional m name field :
  Meta self = Some m → name ∉ default [] (optional_fields m) →
  show_field self name field = Ok true.
Proof.
  intros Hm Hnot. unfold show_field. rewrite Hm. simpl.
  rewrite bool_decide_eq_false_2 by done. simpl.
  by destruct (truthy (instance self)).
Qed.

(** A call that returns has evaluated every declared field. *)
Lemma filter_fields_defined fields fs name field :
  filter_fields self fields = Ok fs → (name, field) ∈ fields →
  ∃ keep, keep_field self name field = Ok keep.
Proof.
  revert fs. induction fields as [|[n f] rest IH]; intros fs Hfs Hin.
  { by apply elem_of_nil in Hin. }
  simpl in Hfs.
  destruct (keep_field self n f) as [keep|] eqn:Hkeep; [|done].
  destruct (filter_fields self rest) as [rest'|] eqn:Hrest; [|done].
  apply elem_of_cons in Hin as [[= -> ->]|Hin]; eauto.
Qed.

Lemma get_owner_of_attr m attr obj :
  Meta self = Some m → owner_attr m = Some attr →
  get_owner_of self obj =
  if decide (attr = "*") then Ok obj else get_attribute obj (split_dot attr).
Proof. intros Hm Hattr. unfold get_owner_of. by rewrite Hm, Hattr. Qed.
End Filter.

(** C6, as amended: for a field listed in [owner_fields], (i) the
    ownership gate lets a requesting superuser through whoever owns the
    instance, so the field is visible exactly when the optional-field
    gate shows it, which it does whenever the field is not optional or
    no instance is bound; (ii) when a request exists and its user is
    neither a superuser nor equal to the resolved owner, the field is
    not visible; (iii) without a request the field is not visible. *)
Theorem owner_field_visibility self m listed name field :
  Meta self = Some m → owner_fields m = Some listed → name ∈ listed →
  (∀ r, request (context self) = Some r → is_superuser (user r) = true →
     allow_field self name field = Ok true ∧
     keep_field self name field = show_field self name field ∧
     (name ∉ default [] (optional_fields m) ∨ truthy (instance self) = false →
      keep_field self name field = Ok true) ∧
     ∀ fs, get_fields self = Ok fs →
           ((name, field) ∈ fs ↔
            (name, field) ∈ declared self ∧ show_field self name field = Ok true))
  ∧ (∀ r owner, request (context self) = Some r →
       is_superuser (user r) = false →
       get_owner_of self (instance self) = Ok owner →
       user_eq (user r) owner = false →
       allow_field self name field = Ok false ∧
       ∀ fs, get_fields self = Ok fs → name ∉ fs.*1)
  ∧ (request (context self) = None →
       allow_field self name field = Ok false ∧
       ∀ fs, get_fields self = Ok fs → name ∉ fs.*1).
Proof.
  intros Hm Hlisted Hin.
  pose proof (λ f, allow_field_owner_listed self m listed name f Hm Hlisted Hin)
    as Hallow.
  split; [|split].
  - intros r Hr Hsuper.
    assert (allow_field self name field = Ok true) as Hok.
    { rewrite Hallow, Hr. unfold user_is_owner. by rewrite Hsuper. }
    assert (keep_field self name field = show_field self name field) as Hkeep.
    { unfold keep_field. by rewrite Hok. }
    split; [done|]. split; [done|]. split.
    + rewrite Hkeep. intros [Hnot|Hunbound].
      * by eapply show_field_not_optional.
      * by apply show_field_unbound.
    + intros fs Hfs. rewrite <- Hkeep. by apply get_fields_elem.
  - intros r owner Hr Hsuper Howner Hne.
    assert (∀ f, allow_field self name f = Ok false) as Hno.
    { intros f. rewrite Hallow, Hr. unfold user_is_owner.
      rewrite Hsuper, Howner. simpl. by rewrite Hne. }
    split; [apply Hno|]. intros fs Hfs. by eapply get_fields_refused.
  - intros Hr.
    assert (∀ f, allow_field self name f = Ok false) as Hno.
    { intros f. by rewrite Hallow, Hr. }
    split; [apply Hno|]. intros fs Hfs. by eapply get_fields_refused.
Qed.

Lemma owner_field_visibility_witness :
  allow_field owner_and_optional "email" char_field = Ok true ∧
  allow_field (post_serializer "author" post_obj bob) "draft" char_field
    = Ok false ∧
  allow_field user_read_offline "email" char_field = Ok false.
Proof.
  split; [|split].
  - destruct (owner_field_visibility owner_and_optional _ _ "email" char_field
                eq_refl eq_refl ltac:(by left)) as [Hsuper _].
    exact (proj1 (Hsuper _ eq_refl eq_refl)).
  - destruct (owner_field_visibility (post_serializer "author" post_obj bob)
                _ _ "draft" char_field eq_refl eq_refl ltac:(by left))
      as (_ & Hother & _).
    exact (proj1 (Hother _ alice_obj eq_refl eq_refl eq_refl eq_refl)).
  - destruct (owner_field_visibility user_read_offline _ _ "email" char_field
                eq_refl eq_refl ltac:(by left)) as (_ & _ & Hoffline).
    exact (proj1 (Hoffline eq_refl)).
Defined.

(** C6, as stated, fails: [email] is listed in [owner_fields] and the
    requesting user is a superuser, yet [get_fields] leaves it out,
    because the same field is optional and nothing asks for it. *)
Lemma superuser_misses_optional_owner_field :
  owner_fields_or_empty (Meta owner_and_optional) = ["email"] ∧
  request (context owner_and_optional) =
    Some {| user := root; query_params := ∅ |} ∧
  is_superuser root = true ∧
  declared owner_and_optional = user_fields ∧
  get_fields owner_and_optional =
    Ok [("username", char_field); ("password", char_field);
        ("profile", profile_field)].
Proof. by vm_compute. Qed.

(** C7, as amended: for a field listed in [optional_fields] that the
    ownership gate lets through, the field is excluded exactly when an
    instance is bound and either the [show_<field>] override answers a
    non-null false, or no override answers and the request carries no
    [show_<field>_field] parameter equal, ignoring case, to "1", "y" or
    "true". *)
Theorem optional_field_exclusion self m listed name field :
  Meta self = Some m → optional_fields m = Some listed → name ∈ listed →
  allow_field self name field = Ok true →
  (name, field) ∈ declared self →
  keep_field self name field =
    (if negb (truthy (instance self)) then Ok true
     else result ← run_show_func self name field;
          Ok (default (explicitly_requested self name) result))
  ∧ ∀ fs, get_fields self = Ok fs →
      ((name, field) ∉ fs ↔
       truthy (instance self) = true ∧
       (run_show_func self name field = Ok (Some false) ∨
        (run_show_func self name field = Ok None ∧
         explicitly_requested self name = false))).
Proof.
  intros Hm Hlisted Hin Hallow Hdecl.
  assert (keep_field self name field =
            (if negb (truthy (instance self)) then Ok true
             else result ← run_show_func self name field;
                  Ok (default (explicitly_requested self name) result)))
    as Hkeep.
  { unfold keep_field. rewrite Hallow. simpl.
    destruct (truthy (instance self)) eqn:Hi; simpl.
    - by erewrite show_field_optional.
    - by apply show_field_unbound. }
  split; [done|]. intros fs Hfs.
  rewrite (get_fields_elem self fs name field Hfs).
  destruct (filter_fields_defined self _ _ _ _ Hfs Hdecl) as [keep Hdef].
  rewrite Hkeep in *.
  destruct (truthy (instance self)); simpl in *.
  - destruct (run_show_func self name field) as [[[]|]|]; simpl in *; [| | |done].
    + split; [intros []; done|]. intros [_ [[=]|[[=] _]]].
    + split; [by intros _; split; [|left]|]. intros _ [_ [=]].
    + destruct (explicitly_requested self name).
      * split; [intros []; done|]. intros [_ [[=]|[_ [=]]]].
      * split; [by intros _; split; [|right]|]. intros _ [_ [=]].
  - split; [intros []; done|]. intros [[=] _].
Qed.

Lemma optional_field_exclusion_witness :
  ("profile", profile_field) ∉
    [("username", char_field); ("password", char_field); ("email", char_field)]
  ↔ truthy (instance override_refuses) = true ∧
    (run_show_func override_refuses "profile" profile_field = Ok (Some false) ∨
     (run_show_func override_refuses "profile" profile_field = Ok None ∧
      explicitly_requested override_refuses "profile" = false)).
Proof.
  apply (proj2 (optional_field_exclusion override_refuses _ _ "profile"
                  profile_field eq_refl eq_refl ltac:(by left) eq_refl
                  ltac:(by do 3 right; left))).
  by vm_compute.
Defined.

(** C7, as stated, fails: the request carries [show_profile_field=1], so
    condition (c) holds, yet the field is excluded, because the
    [show_profile] override answered false. *)
Lemma requested_field_hidden_by_override :
  owner_fields_or_empty (Meta override_refuses) = ["email"] ∧
  (Meta override_refuses ≫= optional_fields) = Some ["profile"] ∧
  (request (context override_refuses) ≫= λ r,
     query_params r !! get_show_field_param "profile") = Some "1" ∧
  explicitly_requested override_refuses "profile" = true ∧
  run_show_func override_refuses "profile" profile_field = Ok (Some false) ∧
  get_fields override_refuses =
    Ok [("username", char_field); ("password", char_field);
        ("email", char_field)].
Proof. by vm_compute. Qed.

(** C8, as amended: when [owner_attr] is the wildcard "*" the resolved
    owner is the instance itself; for any other value, "self" included,
    the owner is resolved by attribute traversal from the instance along
    the dot-separated segments of [owner_attr]. *)
Theorem owner_resolution self m attr obj :
  Meta self = Some m → owner_attr m = Some attr →
  (attr = "*" → get_owner_of self obj = Ok obj) ∧
  (attr ≠ "*" → get_owner_of self obj = get_attribute obj (split_dot attr)) ∧
  (∀ segments, segments ≠ [] → forallb dotless segments = true →
     attr = join_dot segments → attr ≠ "*" →
     get_owner_of self obj = get_attribute obj segments).
Proof.
  intros Hm Hattr. rewrite (get_owner_of_attr self m attr obj Hm Hattr).
  split; [|split].
  - intros ->. by rewrite decide_True.
  - intros Hne. by rewrite decide_False.
  - intros segments Hne Hdotless -> Hstar.
    rewrite decide_False by done. by rewrite PyFacts.split_dot_join.
Qed.

Lemma owner_resolution_witness :
  get_owner_of user_create alice_obj = Ok alice_obj ∧
  get_owner_of (post_serializer "author" post_obj alice) post_obj =
    get_attribute post_obj ["author"].
Proof.
  split.
  - exact (proj1 (owner_resolution user_create _ "*" alice_obj eq_refl eq_refl)
             eq_refl).
  - refine (proj2 (proj2 (owner_resolution (post_serializer "author" post_obj alice)
                            _ "author" post_obj eq_refl eq_refl))
              ["author"] _ eq_refl eq_refl _); by vm_compute.
Defined.

(** C8, as stated, fails: with [owner_attr] set to "self" the owner is
    not the instance; the code looks for an attribute named "self". *)
Lemma owner_attr_self_is_a_path :
  (Meta (post_serializer "self" post_obj alice) ≫= owner_attr) = Some "self" ∧
  get_owner_of (post_serializer "self" post_obj alice) post_obj
    = Raise AttributeError ∧
  get_owner_of (post_serializer "self" post_obj alice) post_obj ≠ Ok post_obj.
Proof. by vm_compute. Qed.

(** C9 on the code: an instance that lacks the owner attribute makes
    owner resolution raise, and the exception leaves [get_fields]; the
    field is not quietly hidden.  The handler in [get_owner_of] guards
    only the [Meta] lookup. *)
Lemma missing_owner_attribute_raises :
  get_owner_of (post_serializer "author" orphan_mapping alice) orphan_mapping
    = Raise KeyError ∧
  get_fields (post_serializer "author" orphan_mapping alice) = Raise KeyError ∧
  get_owner_of (post_serializer "author" orphan_object alice) orphan_object
    = Raise AttributeError ∧
  get_fields (post_serializer "author" orphan_object alice)
    = Raise AttributeError.
Proof. by vm_compute. Qed.

(** C10: with the wildcard [owner_attr], no bound instance and a request
    whose user is not a superuser, the resolved owner is the null
    instance, every field listed in [owner_fields] is refused by the
    ownership gate although [show_field] lets every field through, and
    [get_fields] returns the declared fields without the listed ones. *)
Theorem owner_filter_on_write self m listed r :
  Meta self = Some m → owner_attr m = Some "*" →
  owner_fields m = Some listed →
  instance self = VNone →
  request (context self) = Some r → is_superuser (user r) = false →
  get_owner_of self (instance self) = Ok VNone ∧
  user_eq (user r) VNone = false ∧
  (∀ name field, name ∈ listed →
     allow_field self name field = Ok false ∧
     show_field self name field = Ok true ∧
     keep_field self name field = Ok false) ∧
  ∃ fs, get_fields self = Ok fs ∧
        (∀ name field, (name, field) ∈ fs ↔
                       (name, field) ∈ declared self ∧ name ∉ listed) ∧
        ∀ name, name ∈ listed → name ∉ fs.*1.
Proof.
  intros Hm Hattr Hlisted Hinst Hr Hsuper.
  assert (get_owner_of self (instance self) = Ok VNone) as Howner.
  { rewrite (get_owner_of_attr self m "*" _ Hm Hattr), Hinst. done. }
  assert (∀ name field, show_field self name field = Ok true) as Hshow.
  { intros. apply show_field_unbound. by rewrite Hinst. }
  assert (∀ name field, name ∈ listed → allow_field self name field = Ok false)
    as Hno.
  { intros name field Hin.
    rewrite (allow_field_owner_listed self m listed name field Hm Hlisted Hin), Hr.
    unfold user_is_owner. by rewrite Hsuper, Howner. }
  assert (∀ name field,
            keep_field self name field = Ok (negb (bool_decide (name ∈ listed))))
    as Hkeep.
  { intros name field. unfold keep_field. case_bool_decide as Hin; simpl.
    - by rewrite Hno.
    - rewrite allow_field_unlisted; [apply Hshow|].
      unfold owner_fields_or_empty. by rewrite Hm, Hlisted. }
  split; [done|]. split; [done|]. split.
  { intros name field Hin. split; [by apply Hno|]. split; [apply Hshow|].
    rewrite Hkeep. by rewrite bool_decide_eq_true_2. }
  pose proof (filter_fields_total self (declared self)
                (λ name, negb (bool_decide (name ∈ listed)))
                (λ name field _, Hkeep name field)) as Hfs.
  fold (get_fields self) in Hfs.
  eexists. split; [exact Hfs|]. split.
  - intros name field.
    rewrite (get_fields_elem self _ name field Hfs), Hkeep.
    case_bool_decide; simpl; split; intros [? ?]; done.
  - intros name Hin ([n field] & -> & Hmem)%list_elem_of_fmap.
    apply (get_fields_elem self _ _ _ Hfs) in Hmem as [_ Hk].
    rewrite Hkeep in Hk. simpl in *. by rewrite bool_decide_eq_true_2 in Hk.
Qed.

Lemma owner_filter_on_write_witness :
  ∃ fs, get_fields user_create = Ok fs ∧
        (∀ name field, (name, field) ∈ fs ↔
                       (name, field) ∈ user_fields ∧ name ∉ ["email"]) ∧
        ∀ name, name ∈ ["email"] → name ∉ fs.*1.
Proof.
  exact (proj2 (proj2 (proj2 (owner_filter_on_write user_create _ _ _
                                eq_refl eq_refl eq_refl eq_refl eq_refl
                                eq_refl)))).
Defined.

End OptionalFieldsSpec.

(** ** The polymorphic router *)

Module PolymorphicSpec.

Import Polymorphic Examples.

Section Registry.

Lemma foldl_reverse_foldr {A B} (f : A → B → A) (a : A) (l : list B) :
  foldl f a (reverse l) = foldr (λ b acc, f acc b) a l.
Proof.
  induction l as [|b l IH]; simpl; [done|].
  by rewrite reverse_cons, foldl_app, IH.
Qed.

(** Bases are merged right to left, each below what came before. *)
Lemma _get_type_fields_foldr bases attrs :
  _get_type_fields bases attrs =
  foldr (λ base fields, merge_base fields base) (declared_locally attrs) bases.
Proof. apply foldl_reverse_foldr. Qed.

Lemma declared_locally_lookup attrs name entry :
  declared_locally attrs !! name = Some entry ↔
  ∃ types, Types attrs = Some types ∧ types !! name = Some entry ∧
           startswith_underscore name = false.
Proof.
  unfold declared_locally. destruct (Types attrs) as [types|].
  - rewrite map_lookup_filter_Some. simpl. split.
    + intros [? ?]. eauto.
    + intros (? & [= <-] & ? & ?). done.
  - rewrite lookup_empty. split; [done|]. by intros (? & ? & _).
Qed.

Lemma merged_local bases attrs name entry :
  declared_locally attrs !! name = Some entry →
  _get_type_fields bases attrs !! name = Some entry.
Proof.
  intros Hlocal. rewrite _get_type_fields_foldr.
  induction bases as [|[|c] bases IH]; simpl; [done..|].
  by apply lookup_union_Some_l.
Qed.

Lemma merged_silent bases attrs name :
  declared_locally attrs !! name = None → Forall (silent name) bases →
  _get_type_fields bases attrs !! name = None.
Proof.
  intros Hlocal Hall. rewrite _get_type_fields_foldr.
  induction Hall as [|[|c] bases Hb Hall IH]; simpl; [done..|].
  apply lookup_union_None. by split.
Qed.

Lemma merged_parent pre parent post attrs name entry :
  _type_fields parent !! name = Some entry →
  declared_locally attrs !! name = None → Forall (silent name) post →
  _get_type_fields (pre ++ PolyBase parent :: post) attrs !! name = Some entry.
Proof.
  intros Hparent Hlocal Hpost. rewrite _get_type_fields_foldr.
  induction pre as [|[|c] pre IH]; simpl.
  - rewrite lookup_union_r; [done|].
    rewrite <- _get_type_fields_foldr. by apply merged_silent.
  - done.
  - by apply lookup_union_Some_l.
Qed.

(** The value-keyed view repeats [_type_fields]. *)
Lemma _get_declared_types_id type_fields :
  _get_declared_types type_fields = type_fields.
Proof.
  apply map_eq. intros name. unfold _get_declared_types.
  rewrite PyFacts.dict_comprehension_same_key.
  - by destruct (type_fields !! name) as [[c s]|].
  - by intros [n [c s]].
Qed.

(** Every item of the type-keyed view comes from a [_type_fields] item. *)
Lemma _get_declared_classes_origin type_fields c name serializer :
  _get_declared_classes type_fields !! c = Some (name, serializer) →
  type_fields !! name = Some (c, serializer).
Proof.
  intros (k0 & [c0 s0] & Hk0 & Hf)%PyFacts.dict_comprehension_origin.
  simpl in Hf. by injection Hf as -> -> ->.
Qed.
End Registry.

Section Router.
Variable self : Serializer.

Lemma get_serializer_class_instance inst data :
  inst ≠ VNone →
  get_serializer_class self inst data =
  Ok (snd <$> _declared_classes (cls self) !! class_of inst).
Proof.
  intros Hinst. unfold get_serializer_class.
  replace (is_none inst) with false by (by destruct inst).
  simpl. rewrite PyFacts.first_item_key.
  by destruct (_ !! class_of inst) as [[n s]|].
Qed.

Lemma get_serializer_class_data items :
  get_serializer_class self VNone (Some (VDict items)) =
  match items !! type_field self with
  | Some (VStr name) => Ok (snd <$> _declared_types (cls self) !! name)
  | Some _ => Ok None
  | None => Raise NoTypeSpecified
  end.
Proof.
  unfold get_serializer_class. simpl.
  destruct (items !! type_field self) as [value|]; [|done]. simpl.
  rewrite PyFacts.first_item_str_eq.
  destruct value; try done.
  by destruct (_ !! s) as [[c k]|].
Qed.

Lemma get_serializer_resolved inst data serializer :
  get_serializer_class self inst data = Ok (Some serializer) →
  get_serializer self inst data =
  match ser_init serializer (sargs self) with
  | Ok _ => Ok {| bound_class := serializer; bound_args := sargs self |}
  | Raise TypeError => Raise BadType
  | Raise e => Raise e
  end.
Proof.
  intros Hclass. unfold get_serializer. rewrite Hclass. simpl.
  by destruct (ser_init serializer (sargs self)) as [[]|[]].
Qed.

Lemma get_serializer_unresolved inst data :
  get_serializer_class self inst data = Ok None →
  get_serializer self inst data = Raise BadType.
Proof. intros Hclass. unfold get_serializer. by rewrite Hclass. Qed.
End Router.

(** C1: round trip.  For an instance whose class is registered, with a
    concrete serializer that accepts the arguments and renders the
    instance, [to_representation] delegates to that serializer and
    stamps the payload, and resolving a serializer class from the
    payload by its discriminator gives the same class. *)
Theorem round_trip bases attrs self inst name serializer rep :
  cls self = new_class bases attrs →
  inst ≠ VNone →
  _declared_classes (cls self) !! class_of inst = Some (name, serializer) →
  ser_init serializer (sargs self) = Ok () →
  ser_to_representation serializer (sargs self) inst = Ok rep →
  get_serializer_class self inst None = Ok (Some serializer) ∧
  get_serializer self inst None
    = Ok {| bound_class := serializer; bound_args := sargs self |} ∧
  to_representation self inst = Ok (<[type_field self := VStr name]> rep) ∧
  get_serializer_class self VNone
    (Some (VDict (<[type_field self := VStr name]> rep)))
    = Ok (Some serializer).
Proof.
  intros Hcls Hinst Hreg Hinit Hrep.
  assert (get_serializer_class self inst None = Ok (Some serializer)) as Hclass.
  { rewrite get_serializer_class_instance by done. by rewrite Hreg. }
  assert (get_serializer self inst None
          = Ok {| bound_class := serializer; bound_args := sargs self |}) as Hser.
  { rewrite (get_serializer_resolved self _ _ _ Hclass). by rewrite Hinit. }
  split; [done|]. split; [done|]. split.
  - unfold to_representation. rewrite Hser. simpl. rewrite Hrep. simpl.
    by rewrite Hreg.
  - rewrite get_serializer_class_data, lookup_insert_eq.
    rewrite Hcls in Hreg |- *. simpl in *.
    apply _get_declared_classes_origin in Hreg.
    by rewrite _get_declared_types_id, Hreg.
Qed.

Lemma round_trip_witness :
  get_serializer_class (serializer_of FurnitureSerializer None) VNone
    (Some (VDict (<["type" := VStr "couch"]> {["seats" := VInt 3]})))
  = Ok (Some CouchSerializer).
Proof.
  refine (proj2 (proj2 (proj2
    (round_trip [PlainBase] {| Types := Some FurnitureTypes |}
       (serializer_of FurnitureSerializer None) a_couch "couch" CouchSerializer
       {["seats" := VInt 3]} eq_refl _ _ eq_refl _)))).
  - discriminate.
  - by vm_compute.
  - by vm_compute.
Defined.

(** C2: discriminator retention.  When the payload's discriminator
    resolves to a concrete serializer that accepts the arguments and
    validates the payload, [run_validation] returns the validated output
    with the discriminator field set to the payload's raw value, whether
    or not the concrete output had that field. *)
Theorem discriminator_retained self items value serializer out :
  items !! type_field self = Some value →
  get_serializer_class self VNone (Some (VDict items)) = Ok (Some serializer) →
  ser_init serializer (sargs self) = Ok () →
  ser_run_validation serializer (sargs self) (VDict items) = Ok out →
  run_validation self (Some (VDict items))
    = Ok (<[type_field self := value]> out) ∧
  (initial_data self = Some (VDict items) →
   run_validation self None = Ok (<[type_field self := value]> out)) ∧
  (<[type_field self := value]> out) !! type_field self = Some value ∧
  ∀ key, key ≠ type_field self →
         (<[type_field self := value]> out) !! key = out !! key.
Proof.
  intros Hvalue Hclass Hinit Hvalid.
  assert (run_validation self (Some (VDict items))
          = Ok (<[type_field self := value]> out)) as Hrun.
  { unfold run_validation. simpl. rewrite Hvalue. simpl.
    rewrite (get_serializer_resolved self _ _ _ Hclass), Hinit. simpl.
    by rewrite Hvalid. }
  split; [done|]. split; [|split].
  - intros Hdata. unfold run_validation in *. by rewrite Hdata.
  - apply lookup_insert_eq.
  - intros key Hkey. by apply lookup_insert_ne.
Qed.

Lemma discriminator_retained_witness :
  run_validation (serializer_of FurnitureSerializer None)
    (Some (VDict table_payload))
  = Ok (<["type" := VStr "table"]> {["legs" := VInt 4]}) ∧
  ({["legs" := VInt 4]} : gmap string Val) !! "type" = None.
Proof.
  split; [|by vm_compute].
  refine (proj1 (discriminator_retained (serializer_of FurnitureSerializer None)
                   table_payload (VStr "table") TableSerializer
                   {["legs" := VInt 4]} _ _ eq_refl _)); by vm_compute.
Defined.

(** C3: missing discriminator.  A payload without the discriminator key
    fails polymorphic validation with "No type specified.". *)
Theorem missing_discriminator self items :
  items !! type_field self = None →
  get_serializer_class self VNone (Some (VDict items)) = Raise NoTypeSpecified ∧
  get_serializer self VNone (Some (VDict items)) = Raise NoTypeSpecified ∧
  run_validation self (Some (VDict items)) = Raise NoTypeSpecified ∧
  (initial_data self = Some (VDict items) →
   run_validation self None = Raise NoTypeSpecified) ∧
  NoTypeSpecified = ValidationError "No type specified.".
Proof.
  intros Hmissing.
  assert (get_serializer_class self VNone (Some (VDict items))
          = Raise NoTypeSpecified) as Hclass.
  { by rewrite get_serializer_class_data, Hmissing. }
  assert (get_serializer self VNone (Some (VDict items))
          = Raise NoTypeSpecified) as Hser.
  { unfold get_serializer. by rewrite Hclass. }
  assert (run_validation self (Some (VDict items)) = Raise NoTypeSpecified)
    as Hrun.
  { unfold run_validation. simpl. by rewrite Hser. }
  repeat split; try done.
  intros Hdata. unfold run_validation in *. by rewrite Hdata.
Qed.

Lemma missing_discriminator_witness :
  run_validation (serializer_of FurnitureSerializer None) (Some (VDict ∅))
  = Raise (ValidationError "No type specified.").
Proof.
  exact (proj1 (proj2 (proj2
    (missing_discriminator (serializer_of FurnitureSerializer None) ∅
       eq_refl)))).
Defined.

(** C4: bad-type fallthrough.  A payload whose discriminator value names
    no registry entry, and an instance whose class is in no registry
    entry, make the resolution return [None], and [get_serializer] then
    raises "Bad type."; so does a resolved class whose constructor
    raises a [TypeError]. *)
Theorem bad_type_fallthrough self :
  (∀ items value,
     items !! type_field self = Some value →
     (∀ name, value = VStr name → _declared_types (cls self) !! name = None) →
     get_serializer_class self VNone (Some (VDict items)) = Ok None ∧
     get_serializer self VNone (Some (VDict items)) = Raise BadType)
  ∧ (∀ inst data,
       inst ≠ VNone →
       _declared_classes (cls self) !! class_of inst = None →
       get_serializer_class self inst data = Ok None ∧
       get_serializer self inst data = Raise BadType)
  ∧ (∀ inst data serializer,
       get_serializer_class self inst data = Ok (Some serializer) →
       ser_init serializer (sargs self) = Raise TypeError →
       get_serializer self inst data = Raise BadType)
  ∧ BadType = ValidationError "Bad type.".
Proof.
  split; [|split; [|split; [|done]]].
  - intros items value Hvalue Hunknown.
    assert (get_serializer_class self VNone (Some (VDict items)) = Ok None)
      as Hclass.
    { rewrite get_serializer_class_data, Hvalue.
      destruct value; try done. by rewrite Hunknown. }
    split; [done|]. by apply get_serializer_unresolved.
  - intros inst data Hinst Hunknown.
    assert (get_serializer_class self inst data = Ok None) as Hclass.
    { rewrite get_serializer_class_instance by done. by rewrite Hunknown. }
    split; [done|]. by apply get_serializer_unresolved.
  - intros inst data serializer Hclass Hinit.
    rewrite (get_serializer_resolved self _ _ _ Hclass). by rewrite Hinit.
Qed.

Lemma bad_type_fallthrough_witness :
  get_serializer (serializer_of FurnitureSerializer None) VNone
    (Some (VDict {["type" := VStr "lamp"]}))
  = Raise (ValidationError "Bad type.") ∧
  get_serializer (serializer_of FurnitureSerializer None) a_lamp None
  = Raise (ValidationError "Bad type.") ∧
  get_serializer (serializer_of OfficeSerializer None) VNone
    (Some (VDict {["type" := VStr "safe"]}))
  = Raise (ValidationError "Bad type.").
Proof.
  split; [|split].
  - refine (proj2 (proj1 (bad_type_fallthrough
                            (serializer_of FurnitureSerializer None))
                     {["type" := VStr "lamp"]} (VStr "lamp") eq_refl _)).
    intros name [= <-]. by vm_compute.
  - refine (proj2 (proj1 (proj2 (bad_type_fallthrough
                                   (serializer_of FurnitureSerializer None)))
                     a_lamp None _ _)).
    + discriminate.
    + by vm_compute.
  - refine (proj1 (proj2 (proj2 (bad_type_fallthrough
                                   (serializer_of OfficeSerializer None))))
              VNone _ StrictSerializer _ eq_refl).
    by vm_compute.
Defined.

(** C5: registry merge.  A discriminator that the subclass's [Types]
    declares maps, in the merged registry, to the subclass's pair,
    whatever the bases declare; a discriminator that only a parent
    declares keeps the parent's pair. *)
Theorem registry_merge bases attrs name entry :
  (∀ types, Types attrs = Some types → types !! name = Some entry →
            startswith_underscore name = false →
            _declared_types (new_class bases attrs) !! name = Some entry)
  ∧ (∀ (pre : list Base) parent post,
       bases = (pre ++ PolyBase parent :: post)%list →
       _type_fields parent !! name = Some entry →
       declared_locally attrs !! name = None →
       Forall (silent name) post →
       _declared_types (new_class bases attrs) !! name = Some entry).
Proof.
  unfold new_class. simpl. rewrite _get_declared_types_id. split.
  - intros types Htypes Hname Hpublic. apply merged_local.
    apply declared_locally_lookup. eauto.
  - intros pre parent post -> Hparent Hlocal Hpost. by apply merged_parent.
Qed.

Lemma registry_merge_witness :
  _declared_types OfficeSerializer !! "table"
    = Some ("FoldingTable", FoldingTableSerializer) ∧
  _declared_types OfficeSerializer !! "couch" = Some ("Couch", CouchSerializer).
Proof.
  split.
  - exact (proj1 (registry_merge [PolyBase FurnitureSerializer]
                    {| Types := Some OfficeTypes |} "table"
                    ("FoldingTable", FoldingTableSerializer))
             OfficeTypes eq_refl eq_refl eq_refl).
  - refine (proj2 (registry_merge [PolyBase FurnitureSerializer]
                     {| Types := Some OfficeTypes |} "couch"
                     ("Couch", CouchSerializer))
              [] FurnitureSerializer [] eq_refl _ _ _).
    + by vm_compute.
    + by vm_compute.
    + constructor.
Defined.

End PolymorphicSpec.

(** ** Further properties of the field visibility filter *)

Module OptionalFieldsExtra.

Import OptionalFields Examples OptionalFieldsSpec.

Lemma filter_fields_sublist self fields fs :
  filter_fields self fields = Ok fs → fs `sublist_of` fields.
Proof.
  revert fs. induction fields as [|[n f] rest IH]; intros fs Hfs.
  - injection Hfs as <-. constructor.
  - simpl in Hfs.
    destruct (keep_field self n f) as [keep|]; [|done].
    destruct (filter_fields self rest) as [rest'|]; [|done].
    injection Hfs as <-. destruct keep; constructor; by apply IH.
Qed.

Lemma filter_fields_all self fields :
  (∀ name field, (name, field) ∈ fields → keep_field self name field = Ok true) →
  filter_fields self fields = Ok fields.
Proof.
  induction fields as [|[n f] rest IH]; intros Hkeep; simpl; [done|].
  rewrite Hkeep by left. by rewrite IH by (intros; apply Hkeep; by right).
Qed.

(** X1.  The filter only removes: what [get_fields] returns is the declared
    fields with some left out, in declaration order, and field names
    stay unique. *)
Theorem get_fields_sublist self fs :
  get_fields self = Ok fs →
  fs `sublist_of` declared self ∧
  (List.length fs ≤ List.length (declared self))%nat ∧
  (NoDup (declared self).*1 → NoDup fs.*1).
Proof.
  intros Hfs. apply filter_fields_sublist in Hfs.
  split; [done|]. split; [by apply sublist_length|].
  intros Hnd. eapply sublist_NoDup; [done|]. by apply fmap_sublist.
Qed.

Lemma get_fields_sublist_witness :
  [("username", char_field); ("password", char_field); ("email", char_field)]
    `sublist_of` user_fields.
Proof.
  refine (proj1 (get_fields_sublist override_refuses _ _)). by vm_compute.
Defined.

(** X2.  A serializer whose [Meta] lists none of its declared fields in
    [owner_fields] or [optional_fields] keeps every declared field,
    whatever the request, the instance and the overrides are. *)
Theorem get_fields_unrestricted self m :
  Meta self = Some m →
  (∀ name, name ∈ (declared self).*1 →
           (name ∉ default [] (owner_fields m)) ∧
           (name ∉ default [] (optional_fields m))) →
  get_fields self = Ok (declared self).
Proof.
  intros Hm Hfree. apply filter_fields_all. intros name field Hin.
  destruct (Hfree name) as [Howner Hoptional].
  { apply list_elem_of_fmap. by exists (name, field). }
  unfold keep_field. rewrite allow_field_unlisted.
  - by eapply show_field_not_optional.
  - unfold owner_fields_or_empty. by rewrite Hm.
Qed.

Lemma get_fields_unrestricted_witness :
  get_fields unrestricted_read = Ok user_fields.
Proof.
  refine (get_fields_unrestricted unrestricted_read _ eq_refl _).
  intros name Hin. simpl in Hin.
  repeat (apply elem_of_cons in Hin as [->|Hin]);
    [..|by apply elem_of_nil in Hin];
    split; intros Hbad; repeat (apply elem_of_cons in Hbad as [[=]|Hbad]);
    by apply elem_of_nil in Hbad.
Defined.

(** X3.  A serializer class without an inner [Meta]: with no bound instance
    every declared field is kept; with a bound instance [show_field]
    reads [self.Meta] and [get_fields] raises [AttributeError] as soon
    as there is a field to look at. *)
Theorem get_fields_without_meta self :
  Meta self = None →
  (truthy (instance self) = false → get_fields self = Ok (declared self)) ∧
  (truthy (instance self) = true → declared self ≠ [] →
   get_fields self = Raise AttributeError).
Proof.
  intros Hmeta.
  assert (∀ name field, allow_field self name field = Ok true) as Hallow.
  { intros. apply allow_field_unlisted. rewrite Hmeta. by intros ?%elem_of_nil. }
  split.
  - intros Hunbound. apply filter_fields_all. intros name field _.
    unfold keep_field. rewrite Hallow. by apply show_field_unbound.
  - intros Hbound Hfields. unfold get_fields.
    destruct (declared self) as [|[n f] rest]; [done|]. simpl.
    unfold keep_field. rewrite Hallow. simpl.
    unfold show_field. by rewrite Hbound, Hmeta.
Qed.

Lemma get_fields_without_meta_witness :
  get_fields bare_create = Ok user_fields ∧
  get_fields bare_read = Raise AttributeError.
Proof.
  split.
  - exact (proj1 (get_fields_without_meta bare_create eq_refl) eq_refl).
  - refine (proj2 (get_fields_without_meta bare_read eq_refl) eq_refl _).
    discriminate.
Defined.

(** X4.  The ownership gate for a listed field under a request whose owner
    resolves: it passes exactly when the user is a superuser or equals
    the resolved owner; for a superuser the owner is not even resolved. *)
Theorem owner_gate_decision self m listed name field r :
  Meta self = Some m → owner_fields m = Some listed → name ∈ listed →
  request (context self) = Some r →
  (is_superuser (user r) = true → allow_field self name field = Ok true) ∧
  (∀ owner, get_owner_of self (instance self) = Ok owner →
     allow_field self name field
     = Ok (is_superuser (user r) || user_eq (user r) owner)) ∧
  (∀ e, is_superuser (user r) = false →
        get_owner_of self (instance self) = Raise e →
        allow_field self name field = Raise e).
Proof.
  intros Hm Hlisted Hin Hr.
  rewrite (allow_field_owner_listed self m listed name field Hm Hlisted Hin), Hr.
  unfold user_is_owner. split; [|split].
  - by intros ->.
  - intros owner ->. simpl.
    by destruct (is_superuser (user r)), (user_eq (user r) owner).
  - by intros e -> ->.
Qed.

Lemma owner_gate_decision_witness :
  allow_field (post_serializer "author" post_obj alice) "draft" char_field
  = Ok true ∧
  allow_field (post_serializer "author" orphan_object root) "draft" char_field
  = Ok true.
Proof.
  split.
  - exact (proj1 (proj2 (owner_gate_decision
                           (post_serializer "author" post_obj alice) _ _
                           "draft" char_field _ eq_refl eq_refl
                           ltac:(by left) eq_refl))
             alice_obj eq_refl).
  - exact (proj1 (owner_gate_decision
                    (post_serializer "author" orphan_object root) _ _
                    "draft" char_field _ eq_refl eq_refl
                    ltac:(by left) eq_refl)
             eq_refl).
Defined.

(** X5.  The constructor's assertion fails exactly for a [Meta] with
    [owner_fields] and no [owner_attr]; once it has passed, resolving
    the owner for a listed field always gets past the [Meta] lookup:
    the owner is the object itself or the result of the traversal. *)
Theorem init_guards_owner_lookup self :
  (init self = Raise (AssertionError OWNER_FIELDS_NO_ATTR) ↔
   has_owner_fields (Meta self) = true ∧ has_owner_attr (Meta self) = false) ∧
  (init self = Ok () →
   ∀ name, name ∈ owner_fields_or_empty (Meta self) →
     ∃ attr, (Meta self ≫= owner_attr) = Some attr ∧
       ∀ obj, get_owner_of self obj =
              if decide (attr = "*") then Ok obj
              else get_attribute obj (split_dot attr)).
Proof.
  unfold init. split.
  - destruct (has_owner_attr (Meta self)), (has_owner_fields (Meta self));
      simpl; split; (done || by intros []).
  - intros Hinit name Hin.
    unfold owner_fields_or_empty, has_owner_attr, has_owner_fields in *.
    destruct (Meta self) as [m|] eqn:Hm; [|by apply elem_of_nil in Hin].
    destruct (owner_fields m) as [listed|] eqn:Hlisted;
      [|by apply elem_of_nil in Hin].
    destruct (owner_attr m) as [attr|] eqn:Hattr; [|done].
    exists attr. split; [by simpl|].
    intros obj. by apply (get_owner_of_attr self m).
Qed.

Lemma init_guards_owner_lookup_witness :
  init misconfigured = Raise (AssertionError OWNER_FIELDS_NO_ATTR) ∧
  ∃ attr, (Meta user_create ≫= owner_attr) = Some attr ∧
    ∀ obj, get_owner_of user_create obj =
           if decide (attr = "*") then Ok obj
           else get_attribute obj (split_dot attr).
Proof.
  split.
  - apply (proj1 (init_guards_owner_lookup misconfigured)). by vm_compute.
  - apply (proj2 (init_guards_owner_lookup user_create) eq_refl "email").
    by left.
Defined.

(** X6.  An optional field called [field]: the name [show_field] that the
    override lookup builds is the filter's own method, which does not
    take the [instance] keyword, so on a read that reaches the lookup
    [show_field] raises [TypeError] and [get_fields] returns nothing. *)
Theorem optional_field_named_field self m listed field :
  Meta self = Some m → optional_fields m = Some listed → "field" ∈ listed →
  truthy (instance self) = true →
  show_field self "field" field = Raise TypeError ∧
  (allow_field self "field" field = Ok true →
   ("field", field) ∈ declared self →
   ∀ fs, get_fields self ≠ Ok fs).
Proof.
  intros Hm Hlisted Hin Hbound.
  assert (show_field self "field" field = Raise TypeError) as Hshow.
  { by rewrite (show_field_optional self m listed "field" field). }
  split; [done|]. intros Hallow Hdecl fs Hfs.
  destruct (filter_fields_defined self _ _ _ _ Hfs Hdecl) as [keep Hkeep].
  unfold keep_field in Hkeep. by rewrite Hallow, Hshow in Hkeep.
Qed.

Lemma optional_field_named_field_witness :
  show_field field_named_field "field" char_field = Raise TypeError.
Proof.
  exact (proj1 (optional_field_named_field field_named_field _ _ char_field
                  eq_refl eq_refl ltac:(by left) eq_refl)).
Defined.

End OptionalFieldsExtra.

(** ** Further properties of the polymorphic router *)

Module PolymorphicExtra.

Import Polymorphic Examples PolymorphicSpec.

Section Comprehension.
Context {A B : Type} (f : string * A → string * B).

Lemma foldl_store_keeps l acc k :
  is_Some (acc !! k) → is_Some (foldl (store f) acc l !! k).
Proof.
  revert acc. induction l as [|kv l IH]; intros acc Hk; simpl; [done|].
  apply IH. unfold store. destruct (decide ((f kv).1 = k)) as [<-|Hne].
  - rewrite lookup_insert_eq. eauto.
  - by rewrite lookup_insert_ne.
Qed.

Lemma foldl_store_covers l acc kv :
  kv ∈ l → is_Some (foldl (store f) acc l !! (f kv).1).
Proof.
  revert acc. induction l as [|kv' l IH]; intros acc Hin; simpl.
  { by apply elem_of_nil in Hin. }
  apply elem_of_cons in Hin as [<-|Hin]; [|by apply IH].
  apply foldl_store_keeps. unfold store. rewrite lookup_insert_eq. eauto.
Qed.

(** Every source item leaves an item under its key. *)
Lemma dict_comprehension_covers d k a :
  d !! k = Some a → is_Some (dict_comprehension f d !! (f (k, a)).1).
Proof.
  intros Hk. apply foldl_store_covers. by apply elem_of_map_to_list.
Qed.
End Comprehension.

Lemma NoDup_fmap_agree {A B} (g : A → B) (l : list A) x y :
  NoDup (g <$> l) → x ∈ l → y ∈ l → g x = g y → x = y.
Proof.
  induction l as [|z l IH]; intros Hnd Hx Hy Hg.
  { by apply elem_of_nil in Hx. }
  rewrite fmap_cons in Hnd. apply NoDup_cons in Hnd as [Hfresh Hnd].
  apply elem_of_cons in Hx as [->|Hx]; apply elem_of_cons in Hy as [->|Hy].
  - done.
  - exfalso. apply Hfresh. rewrite Hg. by apply list_elem_of_fmap_2.
  - exfalso. apply Hfresh. rewrite <- Hg. by apply list_elem_of_fmap_2.
  - by apply IH.
Qed.

(** X7.  The two views the metaclass builds agree with the merged table: the
    value-keyed view is the table itself, every item of the type-keyed
    view is the mirror of a table item, every class of the table has an
    item in the type-keyed view, and when no class is registered twice
    the type-keyed view is the exact mirror of the table. *)
Theorem registry_views_consistent bases attrs :
  let c := new_class bases attrs in
  _declared_types c = _type_fields c ∧
  (∀ k name serializer,
     _declared_classes c !! k = Some (name, serializer) →
     _declared_types c !! name = Some (k, serializer)) ∧
  (∀ name k serializer,
     _declared_types c !! name = Some (k, serializer) →
     is_Some (_declared_classes c !! k)) ∧
  (unique_classes (_type_fields c) →
   ∀ name k serializer,
     _declared_types c !! name = Some (k, serializer) →
     _declared_classes c !! k = Some (name, serializer)).
Proof.
  simpl. rewrite _get_declared_types_id.
  set (tf := _get_type_fields bases attrs).
  split; [done|]. split; [|split].
  - intros k name serializer. apply _get_declared_classes_origin.
  - intros name k serializer Hname.
    apply (dict_comprehension_covers
             (λ '(name, (cls, serializer)), (cls, (name, serializer)))) in Hname.
    done.
  - intros Hunique name k serializer Hname.
    destruct (dict_comprehension_covers
                (λ '(name, (cls, serializer)), (cls, (name, serializer)))
                tf name (k, serializer) Hname) as [[name' serializer'] Hk].
    simpl in Hk. unfold _get_declared_classes. rewrite Hk.
    apply _get_declared_classes_origin in Hk.
    apply elem_of_map_to_list in Hname, Hk.
    assert ((name', (k, serializer')) = (name, (k, serializer))) as [= -> ->];
      [|done].
    apply (NoDup_fmap_agree (λ kv, kv.2.1) (map_to_list tf)); try done.
    unfold unique_classes in Hunique. by rewrite <- list_fmap_compose in Hunique.
Qed.

Lemma registry_views_consistent_witness :
  _declared_classes FurnitureSerializer !! "Couch"
  = Some ("couch", CouchSerializer).
Proof.
  refine (proj2 (proj2 (proj2
    (registry_views_consistent [PlainBase] {| Types := Some FurnitureTypes |})))
    _ "couch" "Couch" CouchSerializer _).
  - unfold unique_classes. refine (bool_decide_unpack _ _). by vm_compute.
  - by vm_compute.
Defined.

(** X8.  Every registry entry was declared somewhere: by the class's own
    [Types] under a name without a leading underscore, or by one of the
    bases.  A name with a leading underscore that no base carries is
    never in the registry. *)
Theorem registry_entries_origin bases attrs name :
  (∀ entry,
     _declared_types (new_class bases attrs) !! name = Some entry →
     (startswith_underscore name = false ∧
      ∃ types, Types attrs = Some types ∧ types !! name = Some entry) ∨
     (∃ parent, PolyBase parent ∈ bases ∧
                _type_fields parent !! name = Some entry)) ∧
  (startswith_underscore name = true → Forall (silent name) bases →
   _declared_types (new_class bases attrs) !! name = None).
Proof.
  simpl. rewrite _get_declared_types_id. split.
  - intros entry. rewrite _get_type_fields_foldr.
    induction bases as [|[|parent] bases IH]; simpl.
    + intros (types & ? & ? & ?)%declared_locally_lookup. left. eauto.
    + intros [?|(parent & ? & ?)]%IH; [by left|].
      right. exists parent. split; [by right|done].
    + intros [Hleft|[_ Hright]]%lookup_union_Some_raw.
      * apply IH in Hleft as [?|(parent' & ? & ?)]; [by left|].
        right. exists parent'. split; [by right|done].
      * right. exists parent. split; [by left|done].
  - intros Hprivate Hsilent. apply merged_silent; [|done].
    destruct (declared_locally attrs !! name) as [entry|] eqn:Hlocal; [|done].
    apply declared_locally_lookup in Hlocal as (? & _ & _ & ?). congruence.
Qed.

Lemma registry_entries_origin_witness :
  _declared_types FurnitureSerializer !! "__module__" = None.
Proof.
  refine (proj2 (registry_entries_origin [PlainBase]
                   {| Types := Some FurnitureTypes |} "__module__")
            eq_refl _).
  by repeat constructor.
Defined.

(** X9.  Resolution is a dictionary lookup, whatever order the scans visit
    the items in: a bound instance selects the serializer stored under
    its class and the payload is then not read at all; without an
    instance a string discriminator selects the serializer stored under
    that name, and a discriminator that is not a string selects none. *)
Theorem resolution_is_lookup self :
  (∀ inst data, inst ≠ VNone →
     get_serializer_class self inst data
     = Ok (snd <$> _declared_classes (cls self) !! class_of inst)) ∧
  (∀ items value, items !! type_field self = Some value →
     get_serializer_class self VNone (Some (VDict items))
     = Ok (match value with
           | VStr name => snd <$> _declared_types (cls self) !! name
           | _ => None
           end)) ∧
  get_serializer_class self VNone None = Ok None.
Proof.
  split; [|split; [|done]].
  - intros inst data Hinst. by apply get_serializer_class_instance.
  - intros items value Hvalue. rewrite get_serializer_class_data, Hvalue.
    by destruct value.
Qed.

Lemma resolution_is_lookup_witness :
  get_serializer_class (serializer_of OfficeSerializer None) a_couch
    (Some (VDict table_payload)) = Ok (Some CouchSerializer) ∧
  get_serializer_class (serializer_of OfficeSerializer None) VNone
    (Some (VDict table_payload)) = Ok (Some FoldingTableSerializer).
Proof.
  split.
  - refine (eq_trans (proj1 (resolution_is_lookup
                               (serializer_of OfficeSerializer None))
                        a_couch _ _) _); [discriminate|by vm_compute].
  - refine (eq_trans (proj1 (proj2 (resolution_is_lookup
                                      (serializer_of OfficeSerializer None)))
                        table_payload (VStr "table") _) _); by vm_compute.
Defined.

Lemma none_or_bound (inst : Val) : inst = VNone ∨ inst ≠ VNone.
Proof. destruct inst; [by left|by right..]. Qed.

Lemma get_serializer_inv self inst data bound :
  get_serializer self inst data = Ok bound →
  get_serializer_class self inst data = Ok (Some (bound_class bound)) ∧
  ser_init (bound_class bound) (sargs self) = Ok () ∧
  bound_args bound = sargs self.
Proof.
  unfold get_serializer.
  destruct (get_serializer_class self inst data) as [[k|]|e]; simpl.
  - destruct (ser_init k (sargs self)) as [[]|e] eqn:Hinit; simpl.
    + by intros [= <-].
    + by destruct e.
  - done.
  - by destruct e.
Qed.

(** X10.  What [get_serializer] can return: a concrete serializer exactly when
    a class was resolved and its constructor accepted the outer
    serializer's own arguments (never the [instance] or [data] passed
    in); and it never lets a [TypeError] out. *)
Theorem get_serializer_outcomes self inst data :
  (∀ bound,
     get_serializer self inst data = Ok bound ↔
     get_serializer_class self inst data = Ok (Some (bound_class bound)) ∧
     ser_init (bound_class bound) (sargs self) = Ok () ∧
     bound_args bound = sargs self) ∧
  get_serializer self inst data ≠ Raise TypeError.
Proof.
  unfold get_serializer.
  destruct (get_serializer_class self inst data) as [[k|]|e] eqn:Hclass; simpl.
  - destruct (ser_init k (sargs self)) as [[]|e] eqn:Hinit; simpl.
    + split; [|done]. intros [k' args']. simpl. split.
      * by intros [= <- <-].
      * by intros ([= <-] & _ & ->).
    + split; [|by destruct e]. intros bound. split.
      * by destruct e.
      * intros ([= <-] & ? & _). congruence.
  - split; [|done]. intros bound. split; [done|]. by intros [? _].
  - split; [|by destruct e]. intros bound. split.
    + by destruct e.
    + by intros [? _].
Qed.

(** X11.  The point of re-injecting the discriminator: whenever
    [run_validation] returns, the payload carried a discriminator, the
    validated output carries the same value, and the output resolves to
    the same concrete serializer as the payload did, so [create] on the
    validated output reaches the class that validated it. *)
Theorem validated_output_routes self items out :
  run_validation self (Some (VDict items)) = Ok out →
  ∃ value,
    items !! type_field self = Some value ∧
    out !! type_field self = Some value ∧
    get_serializer self VNone (Some (VDict out))
    = get_serializer self VNone (Some (VDict items)) ∧
    create self (VDict out)
    = (s ← get_serializer self VNone (Some (VDict items));
       ser_create (bound_class s) (bound_args s) (VDict out)).
Proof.
  intros Hrun.
  destruct (items !! type_field self) as [value|] eqn:Hvalue.
  - exists value. unfold run_validation in Hrun. simpl in Hrun.
    rewrite Hvalue in Hrun. simpl in Hrun.
    destruct (get_serializer self VNone (Some (VDict items))) as [s|] eqn:Hs;
      [|done]. simpl in Hrun.
    destruct (ser_run_validation _ _ _) as [out0|]; [|done].
    injection Hrun as <-.
    assert (get_serializer self VNone
              (Some (VDict (<[type_field self := value]> out0))) = Ok s) as Hsame.
    { rewrite <- Hs. unfold get_serializer.
      by rewrite !get_serializer_class_data, lookup_insert_eq, Hvalue. }
    split; [done|]. split; [apply lookup_insert_eq|]. split; [done|].
    unfold create. by rewrite Hsame.
  - exfalso. unfold run_validation, get_serializer in Hrun. simpl in Hrun.
    by rewrite get_serializer_class_data, Hvalue in Hrun.
Qed.

Lemma validated_output_routes_witness :
  ∃ value,
    table_payload !! "type" = Some value ∧
    (<["type" := VStr "table"]> {["legs" := VInt 4]} : gmap string Val) !! "type"
    = Some value.
Proof.
  destruct (validated_output_routes (serializer_of FurnitureSerializer None)
              table_payload (<["type" := VStr "table"]> {["legs" := VInt 4]}))
    as (value & Hin & Hout & _); [by vm_compute|].
  exists value. by split.
Defined.

(** X12.  A representation is produced only for a bound instance of a
    registered class, by that class's serializer, and the discriminator
    in it is the registered name, whatever the concrete serializer put
    under that key. *)
Theorem to_representation_stamp self inst out :
  to_representation self inst = Ok out →
  inst ≠ VNone ∧
  ∃ name serializer rep,
    _declared_classes (cls self) !! class_of inst = Some (name, serializer) ∧
    ser_init serializer (sargs self) = Ok () ∧
    ser_to_representation serializer (sargs self) inst = Ok rep ∧
    out = <[type_field self := VStr name]> rep ∧
    out !! type_field self = Some (VStr name).
Proof.
  intros Hout. unfold to_representation in Hout.
  destruct (none_or_bound inst) as [->|Hinst]; [done|].
  split; [done|].
  destruct (get_serializer self inst None) as [bound|] eqn:Hbound; [|done].
  apply get_serializer_inv in Hbound as (Hclass & Hinit & Hargs).
  rewrite get_serializer_class_instance in Hclass by done.
  destruct (_declared_classes (cls self) !! class_of inst)
    as [[name serializer]|]; [|done].
  injection Hclass as Hclass. simpl in *. rewrite Hargs, <- Hclass in Hout.
  destruct (ser_to_representation serializer (sargs self) inst) as [rep|] eqn:Hrep;
    [|done].
  injection Hout as <-. exists name, serializer, rep.
  rewrite <- Hclass in Hinit. by rewrite lookup_insert_eq.
Qed.

Lemma to_representation_stamp_witness :
  ∃ name serializer rep,
    _declared_classes FurnitureSerializer !! "Couch" = Some (name, serializer) ∧
    ser_init serializer (sargs (serializer_of FurnitureSerializer None)) = Ok () ∧
    ser_to_representation serializer
      (sargs (serializer_of FurnitureSerializer None)) a_couch = Ok rep ∧
    (<["type" := VStr "couch"]> {["seats" := VInt 3]} : gmap string Val)
    = <["type" := VStr name]> rep ∧
    (<["type" := VStr "couch"]> {["seats" := VInt 3]} : gmap string Val) !! "type"
    = Some (VStr name).
Proof.
  refine (proj2 (to_representation_stamp (serializer_of FurnitureSerializer None)
                   a_couch (<["type" := VStr "couch"]> {["seats" := VInt 3]}) _)).
  by vm_compute.
Defined.

(** X13.  An instance that is [None] or whose class is not registered is
    refused with "Bad type." by [to_representation] and by [update]:
    the registry subscript that would raise [KeyError] is never reached. *)
Theorem unregistered_instance_is_bad_type self inst validated_data :
  inst = VNone ∨ _declared_classes (cls self) !! class_of inst = None →
  to_representation self inst = Raise BadType ∧
  update self inst validated_data = Raise BadType.
Proof.
  intros Hinst.
  assert (get_serializer self inst None = Raise BadType) as Hbad.
  { apply get_serializer_unresolved.
    destruct (none_or_bound inst) as [->|Hne]; [done|].
    destruct Hinst as [?|Hunknown]; [done|].
    rewrite get_serializer_class_instance by done. by rewrite Hunknown. }
  unfold to_representation, update. by rewrite Hbad.
Qed.

Lemma unregistered_instance_is_bad_type_witness :
  to_representation (serializer_of FurnitureSerializer None) a_lamp
  = Raise (ValidationError "Bad type.").
Proof.
  refine (proj1 (unregistered_instance_is_bad_type
                   (serializer_of FurnitureSerializer None) a_lamp VNone _)).
  right. by vm_compute.
Defined.

(** X14.  Delegation: with a resolved class whose constructor accepts the
    arguments, [to_internal_value] and [create] return what the concrete
    serializer returns, and [to_internal_value] adds no discriminator. *)
Theorem delegation_by_payload self data serializer :
  get_serializer_class self VNone (Some data) = Ok (Some serializer) →
  ser_init serializer (sargs self) = Ok () →
  to_internal_value self data
  = ser_to_internal_value serializer (sargs self) data ∧
  create self data = ser_create serializer (sargs self) data.
Proof.
  intros Hclass Hinit. unfold to_internal_value, create.
  rewrite (get_serializer_resolved self _ _ _ Hclass), Hinit. done.
Qed.

Lemma delegation_by_payload_witness :
  to_internal_value (serializer_of FurnitureSerializer None)
    (VDict table_payload)
  = ser_to_internal_value TableSerializer
      (sargs (serializer_of FurnitureSerializer None)) (VDict table_payload).
Proof.
  refine (proj1 (delegation_by_payload (serializer_of FurnitureSerializer None)
                   (VDict table_payload) TableSerializer _ eq_refl)).
  by vm_compute.
Defined.

(** X15.  [update] is routed by the class of the instance alone: the
    discriminator in the validated data plays no part. *)
Theorem update_routes_by_instance self inst name serializer :
  inst ≠ VNone →
  _declared_classes (cls self) !! class_of inst = Some (name, serializer) →
  ser_init serializer (sargs self) = Ok () →
  ∀ validated_data,
    update self inst validated_data
    = ser_update serializer (sargs self) inst validated_data.
Proof.
  intros Hinst Hreg Hinit validated_data. unfold update.
  assert (get_serializer_class self inst None = Ok (Some serializer)) as Hclass.
  { rewrite get_serializer_class_instance by done. by rewrite Hreg. }
  rewrite (get_serializer_resolved self _ _ _ Hclass), Hinit. done.
Qed.

Lemma update_routes_by_instance_witness :
  update (serializer_of FurnitureSerializer None) a_couch (VDict table_payload)
  = ser_update CouchSerializer (sargs (serializer_of FurnitureSerializer None))
      a_couch (VDict table_payload).
Proof.
  refine (update_routes_by_instance (serializer_of FurnitureSerializer None)
            a_couch "couch" CouchSerializer _ _ eq_refl (VDict table_payload)).
  - discriminate.
  - by vm_compute.
Defined.

(** X16.  The constructor: it fails exactly when [Meta] declares the default
    name "type" as its [type_field]; otherwise the discriminator field
    is the declared name, or "type" when none is declared, and the
    arguments are kept for the concrete serializers. *)
Theorem init_type_field c meta inst data part ctx :
  (init c meta inst data part ctx
   = Raise (AssertionError
              "Redundant type_field. Simply omit the type_field from meta.")
   ↔ (meta ≫= meta_type_field) = Some "type") ∧
  (∀ self, init c meta inst data part ctx = Ok self →
     (meta ≫= meta_type_field) ≠ Some "type" ∧
     type_field self = default "type" (meta ≫= meta_type_field) ∧
     cls self = c ∧
     sargs self = {| sa_instance := inst; sa_partial := part;
                     sa_context := ctx; sa_data := data |}).
Proof.
  unfold init. destruct (meta ≫= meta_type_field) as [tf|]; simpl.
  - case_bool_decide as Htf; simpl.
    + subst tf. split; [done|]. intros self [=].
    + split; [split; [done|by intros [= ->]]|].
      intros self [= <-]. split; [by intros [= ->]|done].
  - split; [split; done|]. by intros self [= <-].
Qed.

Lemma init_type_field_witness :
  init FurnitureSerializer (Some {| meta_type_field := Some "type" |})
    VNone None false no_request
  = Raise (AssertionError
             "Redundant type_field. Simply omit the type_field from meta.").
Proof.
  exact (proj2 (proj1 (init_type_field FurnitureSerializer
                         (Some {| meta_type_field := Some "type" |})
                         VNone None false no_request)) eq_refl).
Defined.

End PolymorphicExtra.
